(** * coffee-shop: the front-end environment configuration

    The repository fragment consists of two TypeScript modules, each one a
    single declaration [export const environment = { ... }]:

    - [src/frontend/src/environments/environment.prod.ts] (the first variant),
    - [src/unnamed/part_000] (the second variant).

    The object literals are embedded as run-time values of the object-literal
    fragment of JavaScript (booleans, strings, objects with ordered own
    properties), together with the semantics of the member access
    [o.k] and of the assignment [o.k = x] in a strict-mode module.  The
    properties of the configuration are then stated over what a consumer
    obtains when it reads the fields. *)

From Stdlib Require Import String Ascii List Bool PeanoNat.
Import ListNotations.
Local Open Scope string_scope.
Local Open Scope list_scope.

(** ** Values and outcomes *)

Module JS.

#[local] Set Warnings "-register-all".

Inductive value : Type :=
| VUndefined
| VBool (b : bool)
| VString (s : string)
| VObject (props : list (string * value)).

(** The only run-time error the fragment can raise: a property read or
    written on [undefined], or written on a primitive in strict mode. *)
Inductive error : Type := TypeError.

Inductive result (A : Type) : Type :=
| Ok (a : A)
| Err (e : error).
Arguments Ok {A} a.
Arguments Err {A} e.

Definition bind {A B : Type} (r : result A) (k : A -> result B) : result B :=
  match r with
  | Ok a => k a
  | Err e => Err e
  end.

Notation "x <- r ;; k" := (bind r (fun x => k))
  (at level 61, r at next level, right associativity).

(** Own properties, kept in insertion order. *)
Fixpoint lookup (k : string) (props : list (string * value)) : option value :=
  match props with
  | [] => None
  | (k', x) :: rest => if String.eqb k k' then Some x else lookup k rest
  end.

(** Defining a property: an existing key keeps its position and takes the
    new value, a new key goes last. *)
Fixpoint set_prop (k : string) (x : value) (props : list (string * value))
  : list (string * value) :=
  match props with
  | [] => [(k, x)]
  | (k', y) :: rest =>
      if String.eqb k k' then (k', x) :: rest else (k', y) :: set_prop k x rest
  end.

(** Evaluation of an object literal [{ k1: e1, ..., kn: en }] whose member
    expressions are already values: the properties are defined from left to
    right on a fresh object. *)
Definition object_literal (members : list (string * value)) : value :=
  VObject (fold_left (fun acc kv => set_prop (fst kv) (snd kv) acc) members []).

(** The member access [v.k].  Only the own properties of an object are
    modelled: a key the object does not own reads as [undefined] here, where
    the language would go on to the prototype, and the properties of a
    string (its length, its indices) are left out.  The model is faithful on
    chains of own properties, and statements are made on those only. *)
Definition member (v : value) (k : string) : result value :=
  match v with
  | VUndefined => Err TypeError
  | VObject props =>
      Ok (match lookup k props with Some x => x | None => VUndefined end)
  | VBool _ | VString _ => Ok VUndefined
  end.

(** The chain [v.k1.k2. ... .kn]. *)
Fixpoint read_path (v : value) (p : list string) : result value :=
  match p with
  | [] => Ok v
  | k :: rest => x <- member v k ;; read_path x rest
  end.

(** [k1. ... .kn] names an own property at every step. *)
Fixpoint own_path (v : value) (p : list string) : bool :=
  match p with
  | [] => true
  | k :: rest =>
      match v with
      | VObject props =>
          match lookup k props with
          | Some x => own_path x rest
          | None => false
          end
      | _ => false
      end
  end.

(** The assignment [v.k1. ... .kn = x], returning the object after the
    write.  The empty path is no assignment target and leaves [v] alone. *)
Fixpoint assign (v : value) (p : list string) (x : value) : result value :=
  match p with
  | [] => Ok v
  | [k] =>
      match v with
      | VObject props => Ok (VObject (set_prop k x props))
      | _ => Err TypeError
      end
  | k :: rest =>
      child <- member v k ;;
      child' <- assign child rest x ;;
      match v with
      | VObject props => Ok (VObject (set_prop k child' props))
      | _ => Err TypeError
      end
  end.

(** The paths of the leaves (booleans and strings) of a value, in
    property order. *)
Fixpoint key_paths (v : value) : list (list string) :=
  match v with
  | VObject props =>
      (fix go (ps : list (string * value)) : list (list string) :=
         match ps with
         | [] => []
         | (k, x) :: rest => map (cons k) (key_paths x) ++ go rest
         end) props
  | _ => [[]]
  end.

(** The key structure of a value: the leaves forgotten, the keys and the
    nesting kept. *)
Inductive shape : Type :=
| SUndefined
| SBool
| SString
| SObject (keys : list (string * shape)).

Fixpoint shape_of (v : value) : shape :=
  match v with
  | VUndefined => SUndefined
  | VBool _ => SBool
  | VString _ => SString
  | VObject props =>
      SObject ((fix go (ps : list (string * value)) : list (string * shape) :=
                  match ps with
                  | [] => []
                  | (k, x) :: rest => (k, shape_of x) :: go rest
                  end) props)
  end.

End JS.
Import JS.

(** ** The two modules *)

(** [src/frontend/src/environments/environment.prod.ts] *)
Module EnvironmentProd.

Definition environment : value :=
  object_literal [
    ("production", VBool true);
    ("apiServerUrl", VString "https://coffee-shop-backend.onrender.com/");
    ("auth0", object_literal [
       ("url", VString "amrikhudair.eu");
       ("audience", VString "https://coffee-shop.test");
       ("clientId", VString "6foUBjR8Uys0PRrhAEVJ5BF6lltFsYBX");
       ("callbackURL", VString "http://localhost:8100")
     ])
  ].

End EnvironmentProd.

(** [src/unnamed/part_000] *)
Module Part000.

Definition environment : value :=
  object_literal [
    ("production", VBool true);
    ("apiServerUrl", VString "https://coffee-shop-backend.onrender.com/");
    ("auth0", object_literal [
       ("url", VString "amrikhudair.eu");
       ("audience", VString "https://coffee-shop-delta.vercel.app");
       ("clientId", VString "6foUBjR8Uys0PRrhAEVJ5BF6lltFsYBX");
       ("callbackURL", VString "https://coffee-shop-delta.vercel.app")
     ])
  ].

End Part000.

(** An object literal of the layout both modules use, over arbitrary
    member values. *)
Definition environment_literal
  (prod : bool) (api url aud cid cb : string) : value :=
  object_literal [
    ("production", VBool prod);
    ("apiServerUrl", VString api);
    ("auth0", object_literal [
       ("url", VString url);
       ("audience", VString aud);
       ("clientId", VString cid);
       ("callbackURL", VString cb)
     ])
  ].

(** Which of the two modules is bundled is decided when the application is
    built; [load] names the outcome of that choice. *)
Inductive variant : Type := first | second.

Definition load (v : variant) : value :=
  match v with
  | first => EnvironmentProd.environment
  | second => Part000.environment
  end.

(** The six fields of the record and the member chain that reads each. *)
Inductive field : Type :=
| production
| apiServerUrl
| auth0_url
| auth0_audience
| auth0_clientId
| auth0_callbackURL.

Definition all_fields : list field :=
  [production; apiServerUrl; auth0_url; auth0_audience; auth0_clientId;
   auth0_callbackURL].

Definition path_of (f : field) : list string :=
  match f with
  | production => ["production"]
  | apiServerUrl => ["apiServerUrl"]
  | auth0_url => ["auth0"; "url"]
  | auth0_audience => ["auth0"; "audience"]
  | auth0_clientId => ["auth0"; "clientId"]
  | auth0_callbackURL => ["auth0"; "callbackURL"]
  end.

Definition is_string_field (f : field) : bool :=
  match f with
  | production => false
  | _ => true
  end.

(** [environment.production], [environment.auth0.url], ... *)
Definition read (e : value) (f : field) : result value :=
  read_path e (path_of f).

(** ** The record as a mutable object

    [const] fixes the binding, not the object: a strict-mode module that
    imports [environment] may read its fields and, as far as the language
    goes, assign to them. *)

Inductive op : Type :=
| Get (p : list string)
| Put (p : list string) (x : value).

Definition is_get (o : op) : bool :=
  match o with
  | Get _ => true
  | Put _ _ => false
  end.

(** One operation on the object: the object afterwards and the outcome of
    the expression (an assignment evaluates to the assigned value). *)
Definition step (s : value) (o : op) : value * result value :=
  match o with
  | Get p => (s, read_path s p)
  | Put p x =>
      match assign s p x with
      | Ok s' => (s', Ok x)
      | Err e => (s, Err e)
      end
  end.

Fixpoint run (s : value) (ops : list op) : value * list (result value) :=
  match ops with
  | [] => (s, [])
  | o :: rest =>
      let (s1, r) := step s o in
      let (s2, rs) := run s1 rest in
      (s2, r :: rs)
  end.

(** ** Absolute URLs

    The syntax the configuration values are checked against: the
    hierarchical form [scheme "://" host [ ":" port ] rest] of RFC 3986,
    with a registered-name host.  It is narrower than the generic URI syntax
    (no user information, no IP literal, no scheme without authority), so a
    string it accepts is an absolute URL under the wider readings too. *)

Module Url.

Definition code (c : ascii) : nat := nat_of_ascii c.

Definition between (lo hi : nat) (c : ascii) : bool :=
  (lo <=? code c)%nat && (code c <=? hi)%nat.

Definition is_alpha (c : ascii) : bool := between 65 90 c || between 97 122 c.
Definition is_digit (c : ascii) : bool := between 48 57 c.

Definition is_one_of (cs : string) (c : ascii) : bool :=
  existsb (Ascii.eqb c) (list_ascii_of_string cs).

(** scheme = ALPHA *( ALPHA / DIGIT / "+" / "-" / "." ) *)
Definition is_scheme_char (c : ascii) : bool :=
  is_alpha c || is_digit c || is_one_of "+-." c.

(** The characters of a host name: letters, digits, hyphen and dot. *)
Definition is_host_char (c : ascii) : bool :=
  is_alpha c || is_digit c || is_one_of "-." c.

(** What may follow the authority: visible ASCII other than the
    characters a URL never carries unescaped. *)
Definition is_rest_char (c : ascii) : bool :=
  between 33 126 c && negb (is_one_of "<>\^`{|}" c) && negb (code c =? 34)%nat.

Fixpoint span (p : ascii -> bool) (s : string) : string * string :=
  match s with
  | EmptyString => (EmptyString, EmptyString)
  | String c r =>
      if p c then let (a, b) := span p r in (String c a, b)
      else (EmptyString, s)
  end.

Fixpoint all_chars (p : ascii -> bool) (s : string) : bool :=
  match s with
  | EmptyString => true
  | String c r => p c && all_chars p r
  end.

Definition starts_with_alpha (s : string) : bool :=
  match s with
  | String c _ => is_alpha c
  | EmptyString => false
  end.

(** The scheme of [s] and what follows its colon, when [s] begins with
    one. *)
Definition scheme_of (s : string) : option (string * string) :=
  if starts_with_alpha s then
    match span is_scheme_char s with
    | (sch, String ":" r) => Some (sch, r)
    | _ => None
    end
  else None.

Record t : Type := mk {
  scheme : string;
  host : string;
  port : option string;
  rest : string
}.

(** The port, when the authority carries one, and what follows the
    authority. *)
Definition port_of (s : string) : option (option string * string) :=
  match s with
  | String ":" r =>
      match span is_digit r with
      | (EmptyString, _) => None
      | (digits, tail) => Some (Some digits, tail)
      end
  | _ => Some (None, s)
  end.

Definition starts_rest (s : string) : bool :=
  match s with
  | EmptyString => true
  | String c _ => is_one_of "/?#" c
  end.

Definition parse (s : string) : option t :=
  match scheme_of s with
  | Some (sch, String "/" (String "/" r)) =>
      let (h, after_host) := span is_host_char r in
      match h, port_of after_host with
      | String _ _, Some (p, tail) =>
          if starts_rest tail && all_chars is_rest_char tail
          then Some (mk sch h p tail)
          else None
      | _, _ => None
      end
  | _ => None
  end.

Definition is_absolute (s : string) : bool :=
  match parse s with
  | Some _ => true
  | None => false
  end.

(** A host-like token: host characters only, the first one a letter or a
    digit. *)
Definition is_host_token (s : string) : bool :=
  match s with
  | String c _ => (is_alpha c || is_digit c) && all_chars is_host_char s
  | EmptyString => false
  end.

(** [needle] occurs somewhere in [s]. *)
Fixpoint contains (needle s : string) : bool :=
  String.prefix needle s ||
  match s with
  | EmptyString => false
  | String _ r => contains needle r
  end.

End Url.

(** ** Typed reads

    What a consumer obtains from a field it expects to be a string, a
    boolean or a URL. *)

Definition string_at (e : value) (f : field) : option string :=
  match read e f with
  | Ok (VString s) => Some s
  | _ => None
  end.

Definition bool_at (e : value) (f : field) : option bool :=
  match read e f with
  | Ok (VBool b) => Some b
  | _ => None
  end.

Definition url_at (e : value) (f : field) : option Url.t :=
  match string_at e f with
  | Some s => Url.parse s
  | None => None
  end.

(** ** The layout of the record

    The type TypeScript infers for [environment] in both modules:
    [{ production: boolean; apiServerUrl: string;
       auth0: { url: string; audience: string; clientId: string;
                callbackURL: string } }]. *)

Definition layout : shape :=
  SObject [
    ("production", SBool);
    ("apiServerUrl", SString);
    ("auth0", SObject [
       ("url", SString);
       ("audience", SString);
       ("clientId", SString);
       ("callbackURL", SString) ]) ].

Definition has_layout (e : value) : Prop := shape_of e = layout.

(** A value of the type of field [f]. *)
Definition well_typed (f : field) (x : value) : bool :=
  match f, x with
  | production, VBool _ => true
  | production, _ => false
  | _, VString _ => true
  | _, _ => false
  end.

Fixpoint path_eqb (p q : list string) : bool :=
  match p, q with
  | [], [] => true
  | k :: p', k' :: q' => String.eqb k k' && path_eqb p' q'
  | _, _ => false
  end.

(** The field a member chain reads, when it is the chain of a field. *)
Definition field_of_path (p : list string) : option field :=
  find (fun f => path_eqb p (path_of f)) all_fields.

(** The operations that type-check against the record: the read of a
    field, and the assignment to a field of a value of its type. *)
Definition typed_op (o : op) : bool :=
  match o with
  | Get p =>
      match field_of_path p with
      | Some _ => true
      | None => false
      end
  | Put p x =>
      match field_of_path p with
      | Some f => well_typed f x
      | None => false
      end
  end.

Definition is_ok {A : Type} (r : result A) : bool :=
  match r with
  | Ok _ => true
  | Err _ => false
  end.

(** The value a read of field [f] is expected to return after the
    operations [ops], when it returned [r0] before them: the value of the
    last assignment to [f] among [ops], and [r0] when there is none. *)
Fixpoint latest (f : field) (ops : list op) (r0 : result value)
  : result value :=
  match ops with
  | [] => r0
  | Get _ :: rest => latest f rest r0
  | Put p x :: rest =>
      if path_eqb p (path_of f) then latest f rest (Ok x)
      else latest f rest r0
  end.

(** * Properties *)

(** ** Evaluation of the literals *)

Lemma load_first_value :
  load first =
  VObject [
    ("production", VBool true);
    ("apiServerUrl", VString "https://coffee-shop-backend.onrender.com/");
    ("auth0", VObject [
       ("url", VString "amrikhudair.eu");
       ("audience", VString "https://coffee-shop.test");
       ("clientId", VString "6foUBjR8Uys0PRrhAEVJ5BF6lltFsYBX");
       ("callbackURL", VString "http://localhost:8100") ]) ].
Proof. reflexivity. Qed.

Lemma load_second_value :
  load second =
  VObject [
    ("production", VBool true);
    ("apiServerUrl", VString "https://coffee-shop-backend.onrender.com/");
    ("auth0", VObject [
       ("url", VString "amrikhudair.eu");
       ("audience", VString "https://coffee-shop-delta.vercel.app");
       ("clientId", VString "6foUBjR8Uys0PRrhAEVJ5BF6lltFsYBX");
       ("callbackURL", VString "https://coffee-shop-delta.vercel.app") ]) ].
Proof. reflexivity. Qed.

Lemma environment_literal_value (prod : bool) (api url aud cid cb : string) :
  environment_literal prod api url aud cid cb =
  VObject [
    ("production", VBool prod);
    ("apiServerUrl", VString api);
    ("auth0", VObject [
       ("url", VString url);
       ("audience", VString aud);
       ("clientId", VString cid);
       ("callbackURL", VString cb) ]) ].
Proof. reflexivity. Qed.

(** Both modules are instances of the common layout. *)
Lemma load_is_literal (v : variant) :
  exists aud cb,
    load v =
    environment_literal true "https://coffee-shop-backend.onrender.com/"
      "amrikhudair.eu" aud "6foUBjR8Uys0PRrhAEVJ5BF6lltFsYBX" cb.
Proof. destruct v; do 2 eexists; reflexivity. Qed.

(** ** The values of the fields *)

(** C1: loading the first variant yields
    [apiServerUrl = "https://coffee-shop-backend.onrender.com/"]; loading
    the second yields the same [apiServerUrl] and
    [callbackURL = "https://coffee-shop-delta.vercel.app"]. *)
Theorem load_scenario :
  read (load first) apiServerUrl
    = Ok (VString "https://coffee-shop-backend.onrender.com/")
  /\ read (load second) apiServerUrl = read (load first) apiServerUrl
  /\ read (load second) auth0_callbackURL
    = Ok (VString "https://coffee-shop-delta.vercel.app").
Proof. repeat split. Qed.

(** C2: in every variant [apiServerUrl] parses as an absolute URL whose
    scheme is https, and [auth0.audience] and [auth0.callbackURL] each parse
    as absolute URLs. *)
Theorem urls_well_formed (v : variant) :
  (exists u, url_at (load v) apiServerUrl = Some u /\ Url.scheme u = "https")
  /\ (exists u, url_at (load v) auth0_audience = Some u)
  /\ (exists u, url_at (load v) auth0_callbackURL = Some u).
Proof.
  destruct v; repeat split;
    try (eexists; split; [vm_compute; reflexivity | reflexivity]);
    eexists; vm_compute; reflexivity.
Qed.

(** C3: in every variant each of the six fields is present (an own
    property at every step of its member chain), [production] holds a
    boolean, and each of the five string fields holds a non-empty string. *)
Theorem fields_present_nonempty (v : variant) :
  (forall f, own_path (load v) (path_of f) = true)
  /\ (exists b, read (load v) production = Ok (VBool b))
  /\ (forall f, is_string_field f = true ->
        exists s, read (load v) f = Ok (VString s) /\ s <> "").
Proof.
  split; [| split].
  - intros f; destruct v, f; reflexivity.
  - destruct v; eexists; reflexivity.
  - intros f Hf; destruct v, f; try discriminate Hf;
      eexists; (split; [reflexivity | discriminate]).
Qed.

(** C6: in each variant the [production] field is a boolean and its value
    is [true]. *)
Theorem production_is_true (v : variant) :
  read (load v) production = Ok (VBool true)
  /\ bool_at (load v) production = Some true.
Proof. destruct v; split; reflexivity. Qed.

(** C9: in the second variant [auth0.audience] and [auth0.callbackURL] are
    equal, both ["https://coffee-shop-delta.vercel.app"]; in the first
    variant they differ. *)
Theorem second_variant_audience_eq_callback :
  string_at (load second) auth0_audience
    = Some "https://coffee-shop-delta.vercel.app"
  /\ string_at (load second) auth0_callbackURL
    = Some "https://coffee-shop-delta.vercel.app"
  /\ read (load second) auth0_audience = read (load second) auth0_callbackURL
  /\ read (load first) auth0_audience <> read (load first) auth0_callbackURL.
Proof. repeat split. vm_compute. discriminate. Qed.

(** C10: in the first variant [auth0.callbackURL] is exactly
    ["http://localhost:8100"]: its scheme is http, not https, and its host is
    localhost, while the [production] flag of that variant is [true]. *)
Theorem first_variant_callback_localhost :
  string_at (load first) auth0_callbackURL = Some "http://localhost:8100"
  /\ (exists u,
        url_at (load first) auth0_callbackURL = Some u
        /\ Url.scheme u = "http"
        /\ Url.scheme u <> "https"
        /\ Url.host u = "localhost"
        /\ Url.port u = Some "8100")
  /\ bool_at (load first) production = Some true.
Proof.
  split; [reflexivity | split; [| reflexivity]].
  eexists; split; [vm_compute; reflexivity |].
  cbn; repeat split; discriminate.
Qed.

(** C5: in every variant [auth0.url] is a host-like token that carries no
    URL scheme: it has no scheme prefix at all, it does not begin with
    ["http://"] or ["https://"], and ["://"] occurs nowhere in it. *)
Theorem auth0_url_has_no_scheme (v : variant) :
  exists s,
    read (load v) auth0_url = Ok (VString s)
    /\ Url.is_host_token s = true
    /\ Url.scheme_of s = None
    /\ String.prefix "http://" s = false
    /\ String.prefix "https://" s = false
    /\ Url.contains "://" s = false.
Proof. destruct v; eexists; repeat split. Qed.

(** ** The two variants compared *)

Ltac case_key k lit :=
  destruct (String.eqb_spec k lit) as [-> | ?]; [| cbn ].

(** Below the top of the object and outside the [auth0] object itself, a
    chain of own properties reads the same from both variants unless it is
    the chain of [auth0.audience] or of [auth0.callbackURL]. *)
Lemma own_chain_differs_only (p : list string) :
  own_path (load first) p = true ->
  read_path (load first) p = read_path (load second) p
  \/ p = [] \/ p = ["auth0"]
  \/ p = path_of auth0_audience \/ p = path_of auth0_callbackURL.
Proof.
  rewrite load_first_value, load_second_value.
  destruct p as [| k1 p1]; [intros _; right; left; reflexivity |].
  cbn.
  case_key k1 "production".
  { cbn; destruct p1; [intros _; left; reflexivity | discriminate]. }
  case_key k1 "apiServerUrl".
  { cbn; destruct p1; [intros _; left; reflexivity | discriminate]. }
  case_key k1 "auth0"; [cbn | discriminate].
  destruct p1 as [| k2 p2]; [intros _; right; right; left; reflexivity |].
  cbn.
  case_key k2 "url".
  { cbn; destruct p2; [intros _; left; reflexivity | discriminate]. }
  case_key k2 "audience".
  { cbn; destruct p2; [intros _; do 3 right; left; reflexivity | discriminate]. }
  case_key k2 "clientId".
  { cbn; destruct p2; [intros _; left; reflexivity | discriminate]. }
  case_key k2 "callbackURL"; [cbn | discriminate].
  destruct p2; [intros _; do 4 right; reflexivity | discriminate].
Qed.

(** C4: the two variants have the same keys with the same nesting, their
    leaves are the six fields, and a field reads differently from the two
    variants exactly when it is [auth0.audience] or [auth0.callbackURL]:
    [production], [apiServerUrl], [auth0.url] and [auth0.clientId] are
    equal across the variants.  Among all chains of own properties the
    only others to read differently are the object itself and its [auth0]
    object, which hold the two fields. *)
Theorem variants_differ_only_in_audience_callback :
  shape_of (load first) = shape_of (load second)
  /\ key_paths (load first) = map path_of all_fields
  /\ key_paths (load second) = map path_of all_fields
  /\ (forall f,
        read (load first) f <> read (load second) f
        <-> (f = auth0_audience \/ f = auth0_callbackURL))
  /\ (forall p,
        own_path (load first) p = true ->
        read_path (load first) p = read_path (load second) p
        \/ p = [] \/ p = ["auth0"]
        \/ p = path_of auth0_audience \/ p = path_of auth0_callbackURL).
Proof.
  split; [reflexivity |].
  split; [reflexivity |].
  split; [reflexivity |].
  split; [| exact own_chain_differs_only].
  intros f; split.
  - intros Hne; destruct f;
      try (exfalso; apply Hne; reflexivity); [left | right]; reflexivity.
  - intros [-> | ->]; vm_compute; discriminate.
Qed.

(** ** Field access cannot fail *)

(** Every field of an object of the common layout reads back the member
    value the literal gave it, whatever that value is. *)
Lemma read_environment_literal (prod : bool) (api url aud cid cb : string) :
  let e := environment_literal prod api url aud cid cb in
  read e production = Ok (VBool prod)
  /\ read e apiServerUrl = Ok (VString api)
  /\ read e auth0_url = Ok (VString url)
  /\ read e auth0_audience = Ok (VString aud)
  /\ read e auth0_clientId = Ok (VString cid)
  /\ read e auth0_callbackURL = Ok (VString cb).
Proof. cbv zeta; rewrite environment_literal_value; repeat split. Qed.

(** C7: no field access can fail.  In every variant the read of each of the
    six fields returns a value, never an error, and the value is the stored
    one: the literal's own member, found as an own property.  Nothing is
    validated on the way: an object of the same layout returns whatever
    members it was built from, well-formed or not. *)
Theorem field_access_total :
  (forall v f, exists x,
      read (load v) f = Ok x
      /\ x <> VUndefined
      /\ In (path_of f) (key_paths (load v)))
  /\ (forall prod api url aud cid cb,
        let e := environment_literal prod api url aud cid cb in
        read e production = Ok (VBool prod)
        /\ read e apiServerUrl = Ok (VString api)
        /\ read e auth0_url = Ok (VString url)
        /\ read e auth0_audience = Ok (VString aud)
        /\ read e auth0_clientId = Ok (VString cid)
        /\ read e auth0_callbackURL = Ok (VString cb)).
Proof.
  split; [| exact read_environment_literal].
  intros v f; destruct v, f; eexists;
    (split; [reflexivity | split; [discriminate | cbn; tauto]]).
Qed.

(** ** Reads leave the record alone

    A sequence of reads leaves any object as it was.  What the consumers
    of [environment] do with it is not among the sources. *)

Section Frame.

Variable s : value.

Lemma run_gets (ops : list op) :
  forallb is_get ops = true ->
  run s ops = (s, map (fun o => snd (step s o)) ops).
Proof.
  induction ops as [| o rest IH]; intros Hall; [reflexivity |].
  cbn in Hall; apply andb_prop in Hall as [Ho Hrest].
  destruct o as [p | p x]; [| discriminate Ho].
  cbn; rewrite (IH Hrest); reflexivity.
Qed.

End Frame.

(** The language does not freeze the object: an assignment, were a
    consumer to make one, succeeds and is seen by the next read. *)
Lemma put_is_observable (v : variant) :
  run (load v) [Put (path_of auth0_url) (VString "x"); Get (path_of auth0_url)]
  <> run (load v) [Get (path_of auth0_url); Get (path_of auth0_url)].
Proof. destruct v; vm_compute; discriminate. Qed.

(** * Beyond reads: the record under assignment

    Neither module freezes its object or declares a field read-only, so
    the fields are six independent, writable cells.  The statements below
    hold from every object of the record's layout, the two loaded ones
    among them. *)

Lemma load_has_layout (v : variant) : has_layout (load v).
Proof. destruct v; reflexivity. Qed.

Lemma environment_literal_has_layout (prod : bool) (api url aud cid cb : string) :
  has_layout (environment_literal prod api url aud cid cb).
Proof. reflexivity. Qed.

Ltac next_prop H props x Hx :=
  let k := fresh "k" in
  destruct props as [| [k x] props]; cbn in H; [discriminate H |];
  let Hk := fresh "Hk" in
  injection H as Hk Hx H; subst k.

Ltac no_more_props H props :=
  destruct props as [| [? ?] ?]; cbn in H; [clear H | discriminate H].

(** An object of the layout is an object literal of the layout. *)
Lemma has_layout_inv (e : value) :
  has_layout e ->
  exists prod api url aud cid cb,
    e = environment_literal prod api url aud cid cb.
Proof.
  unfold has_layout, layout; intros H.
  destruct e as [| | | props]; try discriminate H.
  cbn in H; injection H as H.
  next_prop H props x1 H1; next_prop H props x2 H2; next_prop H props x3 H3.
  no_more_props H props.
  destruct x1 as [| prod | |]; try discriminate H1.
  destruct x2 as [| | api |]; try discriminate H2.
  destruct x3 as [| | | inner]; try discriminate H3.
  cbn in H3; injection H3 as H.
  next_prop H inner y1 I1; next_prop H inner y2 I2;
    next_prop H inner y3 I3; next_prop H inner y4 I4.
  no_more_props H inner.
  destruct y1 as [| | url |]; try discriminate I1.
  destruct y2 as [| | aud |]; try discriminate I2.
  destruct y3 as [| | cid |]; try discriminate I3.
  destruct y4 as [| | cb |]; try discriminate I4.
  exists prod, api, url, aud, cid, cb; reflexivity.
Qed.

Ltac by_layout e H :=
  destruct (has_layout_inv e H) as (?prod & ?api & ?url & ?aud & ?cid & ?cb & ->);
  rewrite ?environment_literal_value in *.

Lemma path_eqb_eq (p q : list string) : path_eqb p q = true -> p = q.
Proof.
  revert q; induction p as [| k p IH]; intros [| k' q] H;
    try discriminate H; [reflexivity |].
  cbn in H; apply andb_prop in H as [Hk Hp].
  apply String.eqb_eq in Hk; rewrite Hk, (IH q Hp); reflexivity.
Qed.

Lemma field_of_path_sound (p : list string) (f : field) :
  field_of_path p = Some f -> p = path_of f.
Proof.
  unfold field_of_path; intros H.
  apply find_some in H as [_ H]; apply path_eqb_eq; exact H.
Qed.

Lemma field_of_path_of (f : field) : field_of_path (path_of f) = Some f.
Proof. destruct f; reflexivity. Qed.

(** ** One assignment *)

Lemma assign_field_read (e : value) (f : field) (x : value) :
  has_layout e ->
  exists e',
    assign e (path_of f) x = Ok e'
    /\ read e' f = Ok x
    /\ (forall g, g <> f -> read e' g = read e g).
Proof.
  intros H; by_layout e H.
  destruct f; cbn; eexists; (split; [reflexivity |]);
    (split; [reflexivity |]);
    intros g Hg; destruct g; try reflexivity; congruence.
Qed.

(** X1: the object is not frozen.  From an object of the layout the
    assignment of any value to any of the six fields succeeds, the next read
    of that field returns the assigned value, and the other five fields read
    as before. *)
Theorem assign_field_then_read (e : value) (f : field) (x : value) :
  has_layout e ->
  exists e',
    assign e (path_of f) x = Ok e'
    /\ read e' f = Ok x
    /\ (forall g, g <> f -> read e' g = read e g).
Proof. exact (assign_field_read e f x). Qed.

Lemma assign_field_then_read_witness :
  has_layout (load second)
  /\ exists e',
       assign (load second) (path_of auth0_callbackURL)
         (VString "http://localhost:8100") = Ok e'
       /\ read e' auth0_callbackURL = Ok (VString "http://localhost:8100")
       /\ (forall g, g <> auth0_callbackURL ->
             read e' g = read (load second) g).
Proof.
  split; [reflexivity |].
  apply (assign_field_then_read (load second) auth0_callbackURL); reflexivity.
Defined.

(** X2: assigning to a field the value it already holds leaves the object
    as it is. *)
Theorem assign_field_same_value (e : value) (f : field) (x : value) :
  has_layout e ->
  read e f = Ok x ->
  assign e (path_of f) x = Ok e.
Proof.
  intros H; by_layout e H.
  destruct f; cbn; intros Hx; injection Hx as <-; reflexivity.
Qed.

Lemma assign_field_same_value_witness :
  has_layout (load first)
  /\ read (load first) auth0_audience = Ok (VString "https://coffee-shop.test")
  /\ assign (load first) (path_of auth0_audience)
       (VString "https://coffee-shop.test") = Ok (load first).
Proof.
  split; [reflexivity | split; [reflexivity |]].
  apply (assign_field_same_value (load first) auth0_audience); reflexivity.
Defined.

(** X3: of two assignments to the same field only the second one shows:
    the object is the one the second assignment alone would have given. *)
Theorem assign_field_twice (e : value) (f : field) (x y : value) :
  has_layout e ->
  (e1 <- assign e (path_of f) x ;; assign e1 (path_of f) y)
  = assign e (path_of f) y.
Proof.
  intros H; by_layout e H.
  destruct f; reflexivity.
Qed.

Lemma assign_field_twice_witness :
  has_layout (load first)
  /\ (e1 <- assign (load first) (path_of apiServerUrl)
              (VString "http://localhost:5000") ;;
      assign e1 (path_of apiServerUrl) (VString "http://127.0.0.1:5000/"))
     = assign (load first) (path_of apiServerUrl)
         (VString "http://127.0.0.1:5000/").
Proof.
  split; [reflexivity |].
  apply (assign_field_twice (load first) apiServerUrl); reflexivity.
Defined.

(** X4: assignments to two different fields commute: either order gives
    the same object. *)
Theorem assign_fields_commute (e : value) (f g : field) (x y : value) :
  has_layout e ->
  f <> g ->
  (e1 <- assign e (path_of f) x ;; assign e1 (path_of g) y)
  = (e1 <- assign e (path_of g) y ;; assign e1 (path_of f) x).
Proof.
  intros H Hfg; by_layout e H.
  destruct f, g; try reflexivity; congruence.
Qed.

Lemma assign_fields_commute_witness :
  has_layout (load second)
  /\ auth0_audience <> auth0_callbackURL
  /\ (e1 <- assign (load second) (path_of auth0_audience)
              (VString "https://coffee-shop.test") ;;
      assign e1 (path_of auth0_callbackURL) (VString "http://localhost:8100"))
     = (e1 <- assign (load second) (path_of auth0_callbackURL)
                 (VString "http://localhost:8100") ;;
        assign e1 (path_of auth0_audience) (VString "https://coffee-shop.test")).
Proof.
  split; [reflexivity | split; [discriminate |]].
  apply (assign_fields_commute (load second)); [reflexivity | discriminate].
Defined.

(** ** Sequences of operations *)

Lemma step_typed (e : value) (o : op) :
  has_layout e ->
  typed_op o = true ->
  has_layout (fst (step e o)) /\ is_ok (snd (step e o)) = true.
Proof.
  intros H Ho.
  destruct o as [p | p x]; cbn [typed_op] in Ho;
    destruct (field_of_path p) as [f |] eqn:Hp; try discriminate Ho;
    apply field_of_path_sound in Hp; subst p.
  - split; [exact H |].
    by_layout e H; destruct f; reflexivity.
  - by_layout e H.
    destruct f, x; try discriminate Ho; split; reflexivity.
Qed.

Lemma path_of_inj (f g : field) :
  path_eqb (path_of g) (path_of f) = true -> g = f.
Proof. destruct f, g; intros H; try reflexivity; discriminate H. Qed.

Lemma path_eqb_refl (p : list string) : path_eqb p p = true.
Proof.
  induction p as [| k p IH]; [reflexivity |].
  cbn; rewrite String.eqb_refl; exact IH.
Qed.

(** What one typed operation does to the read of a field. *)
Lemma step_typed_read (e : value) (o : op) (f : field) :
  has_layout e ->
  typed_op o = true ->
  read (fst (step e o)) f = latest f [o] (read e f).
Proof.
  intros H Ho.
  destruct o as [p | p x]; [reflexivity |].
  cbn [typed_op] in Ho.
  destruct (field_of_path p) as [g |] eqn:Hp; [| discriminate Ho].
  apply field_of_path_sound in Hp; subst p.
  destruct (assign_field_read e g x H) as (e' & Ha & Hsame & Hother).
  cbn [step latest]; rewrite Ha; cbn [fst].
  destruct (path_eqb (path_of g) (path_of f)) eqn:Hgf.
  - apply path_of_inj in Hgf; subst g; exact Hsame.
  - apply Hother; intros ->; rewrite path_eqb_refl in Hgf; discriminate Hgf.
Qed.

Lemma latest_cons (f : field) (o : op) (rest : list op) (r0 : result value) :
  latest f (o :: rest) r0 = latest f rest (latest f [o] r0).
Proof.
  destruct o as [p | p x]; cbn; [reflexivity |].
  destruct (path_eqb p (path_of f)); reflexivity.
Qed.

(** X5: type-correct use keeps the record well-formed.  Along any sequence
    of field reads and of assignments of a value of the field's type, from
    an object of the layout, no operation raises an error, every operation
    has an outcome, and the object still has the layout: the same six fields
    with the same types. *)
Theorem typed_ops_keep_layout (ops : list op) (e : value) :
  has_layout e ->
  forallb typed_op ops = true ->
  has_layout (fst (run e ops))
  /\ forallb is_ok (snd (run e ops)) = true
  /\ length (snd (run e ops)) = length ops.
Proof.
  revert e; induction ops as [| o rest IH]; intros e H Hall.
  - cbn; auto.
  - cbn in Hall; apply andb_prop in Hall as [Ho Hrest].
    destruct (step_typed e o H Ho) as [H1 Hok].
    cbn [run]; destruct (step e o) as [s1 r]; cbn [fst snd] in H1, Hok.
    specialize (IH s1 H1 Hrest); destruct (run s1 rest) as [s2 rs].
    cbn [fst snd] in *; destruct IH as (IH1 & IH2 & IH3).
    repeat split; [exact IH1 | | cbn; rewrite IH3; reflexivity].
    cbn; rewrite Hok, IH2; reflexivity.
Qed.

Lemma typed_ops_keep_layout_witness :
  has_layout (load first)
  /\ forallb typed_op
       [Get (path_of auth0_url);
        Put (path_of auth0_callbackURL) (VString "https://coffee-shop.test");
        Put (path_of production) (VBool false);
        Get (path_of auth0_callbackURL)] = true
  /\ has_layout (fst (run (load first)
       [Get (path_of auth0_url);
        Put (path_of auth0_callbackURL) (VString "https://coffee-shop.test");
        Put (path_of production) (VBool false);
        Get (path_of auth0_callbackURL)]))
  /\ forallb is_ok (snd (run (load first)
       [Get (path_of auth0_url);
        Put (path_of auth0_callbackURL) (VString "https://coffee-shop.test");
        Put (path_of production) (VBool false);
        Get (path_of auth0_callbackURL)])) = true
  /\ length (snd (run (load first)
       [Get (path_of auth0_url);
        Put (path_of auth0_callbackURL) (VString "https://coffee-shop.test");
        Put (path_of production) (VBool false);
        Get (path_of auth0_callbackURL)])) = 4.
Proof.
  split; [reflexivity | split; [reflexivity |]].
  exact (typed_ops_keep_layout
           [Get (path_of auth0_url);
            Put (path_of auth0_callbackURL) (VString "https://coffee-shop.test");
            Put (path_of production) (VBool false);
            Get (path_of auth0_callbackURL)]
           (load first) eq_refl eq_refl).
Defined.

(** X6: a field holds what was last assigned to it.  After any sequence of
    type-correct reads and assignments, a field reads as the value of the
    last assignment made to it in the sequence, and as it read before the
    sequence when none was made. *)
Theorem read_after_typed_ops (ops : list op) (e : value) (f : field) :
  has_layout e ->
  forallb typed_op ops = true ->
  read (fst (run e ops)) f = latest f ops (read e f).
Proof.
  revert e; induction ops as [| o rest IH]; intros e H Hall; [reflexivity |].
  cbn in Hall; apply andb_prop in Hall as [Ho Hrest].
  rewrite latest_cons, <- (step_typed_read e o f H Ho).
  destruct (step_typed e o H Ho) as [H1 _].
  cbn [run]; destruct (step e o) as [s1 r]; cbn [fst] in *.
  rewrite <- (IH s1 H1 Hrest).
  destruct (run s1 rest) as [s2 rs]; reflexivity.
Qed.

Lemma read_after_typed_ops_witness :
  has_layout (load second)
  /\ forallb typed_op
       [Put (path_of apiServerUrl) (VString "http://localhost:5000");
        Get (path_of apiServerUrl);
        Put (path_of auth0_url) (VString "example");
        Put (path_of apiServerUrl) (VString "http://127.0.0.1:5000/")] = true
  /\ read (fst (run (load second)
       [Put (path_of apiServerUrl) (VString "http://localhost:5000");
        Get (path_of apiServerUrl);
        Put (path_of auth0_url) (VString "example");
        Put (path_of apiServerUrl) (VString "http://127.0.0.1:5000/")]))
       apiServerUrl
     = latest apiServerUrl
       [Put (path_of apiServerUrl) (VString "http://localhost:5000");
        Get (path_of apiServerUrl);
        Put (path_of auth0_url) (VString "example");
        Put (path_of apiServerUrl) (VString "http://127.0.0.1:5000/")]
       (read (load second) apiServerUrl).
Proof.
  split; [reflexivity | split; [reflexivity |]].
  apply (read_after_typed_ops _ (load second)); reflexivity.
Defined.
